(** * nesap-stl: the training launcher [train.py]

    A shallow embedding of [main] of [train.py]: the command line, the
    loaded configuration, the choice of GPUs and the sequence of calls
    that [main] makes to its collaborators ([init_workers],
    [get_data_loaders], [get_trainer], the trainer's methods,
    [try_barrier], [logging]).

    Python integers are unbounded, hence [Z]; [%] on integers is the
    floored modulo, which is [Z.modulo], and it raises
    [ZeroDivisionError] on a zero divisor.  A [dict] with string keys is
    a [gmap string _]. *)

From stdpp Require Import base gmap strings list numbers pretty.
From Stdlib Require Import ZArith QArith Lia.

Local Open Scope string_scope.
Local Open Scope Z_scope.

(** ** Exceptions and results *)

Inductive exn : Type :=
  | KeyError (key : string)
  | TypeError
  | AttributeError
  | ZeroDivisionError
  | OtherError (name : string).

Inductive result (A : Type) : Type :=
  | Err (e : exn)
  | Ok (a : A).
Arguments Err {A} e.
Arguments Ok {A} a.

Definition is_ok {A} (r : result A) : bool :=
  match r with Ok _ => true | Err _ => false end.

(** ** Values produced by [yaml.load] *)

#[warnings="-register-all"]
Inductive yaml : Type :=
  | YNone
  | YBool (b : bool)
  | YInt (n : Z)
  | YStr (s : string)
  | YScalar (lexeme : string)
  | YList (l : list yaml)
  | YDict (d : gmap string yaml).

(** ** The command line ([parse_args], lines 21-39) *)

Inductive backend : Type := mpi | nccl | gloo.

Record Args : Type := {
  config : string;
  distributed_backend : option backend;
  gpus : option (list Z);
  ranks_per_node : Z;
  gpus_per_rank : option Z;
  resume : bool;
  verbose : bool
}.

(** ** Integer helpers *)

(** [a % b] on Python integers. *)
Definition py_mod (a b : Z) : result Z :=
  if b =? 0 then Err ZeroDivisionError else Ok (a mod b).

(** [range(n)]: [0, 1, ..., n-1], empty when [n <= 0]. *)
Definition range (n : Z) : list Z := seqZ 0 n.

(** ** Choosing the GPUs (lines 77-89) *)

Definition choose_gpus (args : Args) (rank n_ranks : Z) : result (list Z) :=
  match gpus args with
  | Some l => Ok l
  | None =>
      match gpus_per_rank args with
      | Some g =>
          let local_size := Z.min (ranks_per_node args) n_ranks in
          match py_mod rank local_size with
          | Err e => Err e
          | Ok local_rank =>
              Ok ((fun i => i * local_size + local_rank) <$> range g)
          end
      | None => Ok []
      end
  end.

(** A strictly increasing list of device ids. *)
Definition increasing (l : list Z) : Prop :=
  forall i j a b,
    (i < j)%nat -> l !! i = Some a -> l !! j = Some b -> a < b.

(** ** Reading the configuration *)

(** [cfg.get(key, None)]: only a [dict] has the method. *)
Definition dict_get (cfg : yaml) (key : string) : result yaml :=
  match cfg with
  | YDict d => Ok (default YNone (d !! key))
  | _ => Err AttributeError
  end.

(** [d[key]] on a [dict]. *)
Definition lookup_key {A} (d : gmap string A) (key : string) : result A :=
  match d !! key with
  | Some v => Ok v
  | None => Err (KeyError key)
  end.

(** [cfg[key]]: [KeyError] when a [dict] lacks the key; the other values
    of [yaml.load] cannot be indexed by a string. *)
Definition getitem (cfg : yaml) (key : string) : result yaml :=
  match cfg with
  | YDict d => lookup_key d key
  | _ => Err TypeError
  end.

(** [f(k1=..., **v)]: [v] has to be a mapping, and none of its keys may
    repeat a keyword that the call already passes. *)
Definition as_kwargs (taken : list string) (v : yaml)
  : result (gmap string yaml) :=
  match v with
  | YDict d =>
      if existsb (fun k => bool_decide (is_Some (d !! k))) taken
      then Err TypeError
      else Ok d
  | _ => Err TypeError
  end.

(** ** The collaborators

    Everything [main] imports and calls.  [World] is the state outside
    [main] (file system, process group, log streams, the objects behind
    the loader and trainer handles); a call maps the world before it to
    the world after it and either raises or returns.  Floating-point
    values are kept abstract ([num]), with [np_mean] and [truediv] the
    operations [main] applies to them. *)

Record Collab : Type := {
  World : Type;
  loader : Type;
  trainer : Type;
  series : Type;
  num : Type;
  init_workers : option backend -> World -> World * result (Z * Z);
  load_config : string -> World -> World * result yaml;
  expandvars : string -> string;
  makedirs : string -> World -> World * result unit;
  path_join : string -> string -> string;
  config_logging :
    bool -> option string -> bool -> World -> World * result unit;
  gethostname : World -> string;
  try_barrier : World -> World * result unit;
  get_data_loaders :
    bool -> gmap string yaml -> World ->
    World * result (loader * option loader);
  get_trainer :
    yaml -> bool -> list Z -> Z -> option string -> World ->
    World * result trainer;
  build : trainer -> yaml -> World -> World * result unit;
  load_checkpoint : trainer -> World -> World * result unit;
  train :
    trainer -> loader -> option loader -> gmap string yaml -> World ->
    World * result (gmap string series);
  sampler_len : loader -> Z;
  np_mean : series -> num;
  truediv : Z -> num -> num
}.

(** ** Events: what an observer of a run sees, in order *)

Inductive logarg (C : Collab) : Type :=
  | AInt (n : Z)
  | ANum (x : num C)
  | AStr (s : string)
  | AInts (l : list Z)
  | AYaml (v : yaml).
Arguments AInt {C} n.
Arguments ANum {C} x.
Arguments AStr {C} s.
Arguments AInts {C} l.
Arguments AYaml {C} v.

(** One event per call, carrying the arguments and the outcome.
    [EvChooseGpus] marks the assignment of [gpus] (lines 78-89). *)
Inductive event (C : Collab) : Type :=
  | EvInitWorkers (b : option backend) (r : result (Z * Z))
  | EvLoadConfig (path : string) (r : result yaml)
  | EvMakedirs (dir : string) (r : result unit)
  | EvConfigLogging (verb : bool) (log_file : option string)
      (append : bool) (r : result unit)
  | EvLog (fmt : string) (args : list (logarg C))
  | EvBarrier (r : result unit)
  | EvGetDataLoaders (distributed : bool) (kwargs : gmap string yaml)
      (r : result (loader C * option (loader C)))
  | EvChooseGpus (r : result (list Z))
  | EvGetTrainer (name : yaml) (distributed : bool) (devices : list Z)
      (rank : Z) (output_dir : option string) (r : result (trainer C))
  | EvBuild (t : trainer C) (cfg : yaml) (r : result unit)
  | EvLoadCheckpoint (t : trainer C) (r : result unit)
  | EvTrain (t : trainer C) (tl : loader C) (vl : option (loader C))
      (kwargs : gmap string yaml) (r : result (gmap string (series C)))
  | EvMean (s : series C) (m : num C).
Arguments EvInitWorkers {C} b r.
Arguments EvLoadConfig {C} path r.
Arguments EvMakedirs {C} dir r.
Arguments EvConfigLogging {C} verb log_file append r.
Arguments EvLog {C} fmt args.
Arguments EvBarrier {C} r.
Arguments EvGetDataLoaders {C} distributed kwargs r.
Arguments EvChooseGpus {C} r.
Arguments EvGetTrainer {C} name distributed devices rank output_dir r.
Arguments EvBuild {C} t cfg r.
Arguments EvLoadCheckpoint {C} t r.
Arguments EvTrain {C} t tl vl kwargs r.
Arguments EvMean {C} s m.

(** ** The monad of [main]: world and trace threaded, exceptions abort *)

Record state (C : Collab) : Type := {
  world : World C;
  trace : list (event C)
}.
Arguments world {C} s.
Arguments trace {C} s.

Definition M (C : Collab) (A : Type) : Type :=
  state C -> state C * result A.

Definition ret {C A} (a : A) : M C A := fun st => (st, Ok a).

Definition bind {C A B} (m : M C A) (k : A -> M C B) : M C B :=
  fun st =>
    match m st with
    | (st', Ok a) => k a st'
    | (st', Err e) => (st', Err e)
    end.

(** A value computed inside [main]; an exception propagates. *)
Definition lift {C A} (r : result A) : M C A := fun st => (st, r).

(** A call to a collaborator, observed with its outcome. *)
Definition call {C A} (f : World C -> World C * result A)
    (ev : result A -> event C) : M C A :=
  fun st =>
    let '(w, r) := f (world st) in
    ({| world := w; trace := trace st ++ [ev r] |}, r).

(** A step of [main] itself that is observed. *)
Definition note {C A} (r : result A) (ev : result A -> event C) : M C A :=
  fun st => ({| world := world st; trace := trace st ++ [ev r] |}, r).

(** [logging.info(fmt, *args)]; logging does not raise, and the log
    streams are not part of [World]: what is logged is in the trace. *)
Definition info {C} (fmt : string) (args : list (logarg C)) : M C unit :=
  fun st =>
    ({| world := world st; trace := trace st ++ [EvLog fmt args] |}, Ok tt).

(** [np.mean(s)]: a computation of [main], observed. *)
Definition mean {C} (s : series C) : M C (num C) :=
  fun st =>
    ({| world := world st;
        trace := trace st ++ [EvMean s (np_mean C s)] |},
     Ok (np_mean C s)).

(** Reading the world without changing it. *)
Definition gets {C A} (f : World C -> A) : M C A :=
  fun st => (st, Ok (f (world st))).

Definition when {C} (b : bool) (m : M C unit) : M C unit :=
  if b then m else ret tt.

(** ['out_%i.log' % rank] *)
Definition log_name (rank : Z) : string :=
  "out_" +:+ pretty rank +:+ ".log".

Declare Scope run_scope.
Delimit Scope run_scope with run.
Notation "x <- m ;; k" := (bind m (fun x => k))
  (at level 100, m at next level, right associativity) : run_scope.
Notation "m ;; k" := (bind m (fun _ => k))
  (at level 100, right associativity) : run_scope.

Local Open Scope run_scope.

(** ** [main] (lines 46-122) *)

Definition main (C : Collab) (args : Args) : M C unit :=
  (* Initialization *)
  ids <- call (init_workers C (distributed_backend args))
              (EvInitWorkers (distributed_backend args)) ;;
  let '(rank, n_ranks) := ids in
  (* Load configuration *)
  cfg <- call (load_config C (config args)) (EvLoadConfig (config args)) ;;
  (* Prepare output directory *)
  output_dir <- lift (dict_get cfg "output_dir") ;;
  output_dir <-
    match output_dir with
    | YNone => ret None
    | YStr s =>
        let dir := expandvars C s in
        call (makedirs C dir) (EvMakedirs dir) ;;
        ret (Some dir)
    | _ => lift (Err TypeError)
    end ;;
  (* Setup logging *)
  let log_file :=
    match output_dir with
    | Some dir => Some (path_join C dir (log_name rank))
    | None => None
    end in
  call (config_logging C (verbose args) log_file (resume args))
       (EvConfigLogging (verbose args) log_file (resume args)) ;;
  host <- gets (gethostname C) ;;
  info "Initialized rank %i out of %i on host %s"
       [AInt rank; AInt n_ranks; AStr host] ;;
  call (try_barrier C) EvBarrier ;;
  when (rank =? 0) (info "Configuration: %s" [AYaml cfg]) ;;
  (* Load the datasets *)
  let distributed := bool_decide (distributed_backend args <> None) in
  data <- lift (getitem cfg "data") ;;
  data <- lift (as_kwargs ["distributed"] data) ;;
  loaders <- call (get_data_loaders C distributed data)
                  (EvGetDataLoaders distributed data) ;;
  let '(train_data_loader, valid_data_loader) := loaders in
  (* Choose GPUs *)
  gpus <- note (choose_gpus args rank n_ranks) EvChooseGpus ;;
  when (0 <? Z.of_nat (length gpus)) (info "Using GPUs %s" [AInts gpus]) ;;
  (* Load the trainer *)
  name <- lift (getitem cfg "trainer") ;;
  trainer <- call (get_trainer C name distributed gpus rank output_dir)
                  (EvGetTrainer name distributed gpus rank output_dir) ;;
  (* Build the model and optimizer *)
  call (build C trainer cfg) (EvBuild trainer cfg) ;;
  (* Resume from checkpoint *)
  when (resume args)
       (call (load_checkpoint C trainer) (EvLoadCheckpoint trainer)) ;;
  (* Run the training *)
  params <- lift (getitem cfg "train") ;;
  params <- lift (as_kwargs ["train_data_loader"; "valid_data_loader"]
                            params) ;;
  summary <- call (train C trainer train_data_loader valid_data_loader params)
                  (EvTrain trainer train_data_loader valid_data_loader params) ;;
  (* Print some conclusions *)
  call (try_barrier C) EvBarrier ;;
  let n_train_samples := sampler_len C train_data_loader in
  info "Finished training" [] ;;
  times <- lift (lookup_key summary "train_time") ;;
  train_time <- mean times ;;
  info "Train samples %g time %g s rate %g samples/s"
       [AInt n_train_samples; ANum train_time;
        ANum (truediv C n_train_samples train_time)] ;;
  match valid_data_loader with
  | Some valid_data_loader =>
      let n_valid_samples := sampler_len C valid_data_loader in
      times <- lift (lookup_key summary "valid_time") ;;
      valid_time <- mean times ;;
      info "Valid samples %g time %g s rate %g samples/s"
           [AInt n_valid_samples; ANum valid_time;
            ANum (truediv C n_valid_samples valid_time)]
  | None => ret tt
  end ;;
  info "All done!" [].

(** A run of the script: [main] from an initial world, nothing observed
    yet. *)
Definition run (C : Collab) (args : Args) (w : World C)
  : state C * result unit :=
  main C args {| world := w; trace := [] |}.

(** ** Reading a trace *)

Section Traces.
Context {C : Collab}.

Definition is_barrier (e : event C) : bool :=
  match e with EvBarrier _ => true | _ => false end.

(** A barrier that every worker reached: [try_barrier] returned. *)
Definition is_barrier_passed (e : event C) : bool :=
  match e with EvBarrier (Ok _) => true | _ => false end.

(** Logging has been configured: [config_logging] returned. *)
Definition is_logging_ready (e : event C) : bool :=
  match e with EvConfigLogging _ _ _ (Ok _) => true | _ => false end.

Definition is_get_data_loaders (e : event C) : bool :=
  match e with EvGetDataLoaders _ _ _ => true | _ => false end.

(** The data loaders exist: [get_data_loaders] returned them. *)
Definition is_data_loaded (e : event C) : bool :=
  match e with EvGetDataLoaders _ _ (Ok _) => true | _ => false end.

Definition is_choose_gpus (e : event C) : bool :=
  match e with EvChooseGpus _ => true | _ => false end.

Definition is_get_trainer (e : event C) : bool :=
  match e with EvGetTrainer _ _ _ _ _ _ => true | _ => false end.

(** The trainer object exists: [get_trainer] returned it. *)
Definition is_trainer_built (e : event C) : bool :=
  match e with EvGetTrainer _ _ _ _ _ (Ok _) => true | _ => false end.

Definition is_load_checkpoint (e : event C) : bool :=
  match e with EvLoadCheckpoint _ _ => true | _ => false end.

Definition is_train (e : event C) : bool :=
  match e with EvTrain _ _ _ _ _ => true | _ => false end.

(** The model and optimizer are built: [trainer.build] returned. *)
Definition is_model_built (e : event C) : bool :=
  match e with EvBuild _ _ (Ok _) => true | _ => false end.

(** The device plan is computed: line 78-89 assigned [gpus]. *)
Definition is_planned (e : event C) : bool :=
  match e with EvChooseGpus (Ok _) => true | _ => false end.

(** The checkpoint is restored: [load_checkpoint] returned. *)
Definition is_resumed (e : event C) : bool :=
  match e with EvLoadCheckpoint _ (Ok _) => true | _ => false end.

(** [train()] returned its summary. *)
Definition is_trained (e : event C) : bool :=
  match e with EvTrain _ _ _ _ (Ok _) => true | _ => false end.

(** Construction of the data loaders, of the device plan or of the
    trainer. *)
Definition is_construction (e : event C) : bool :=
  is_get_data_loaders e || is_choose_gpus e || is_get_trainer e.

Definition train_fmt : string :=
  "Train samples %g time %g s rate %g samples/s".
Definition valid_fmt : string :=
  "Valid samples %g time %g s rate %g samples/s".

(** A summary statistic is computed ([np.mean]) or reported (one of
    the two rate lines). *)
Definition is_statistic (e : event C) : bool :=
  match e with
  | EvMean _ _ => true
  | EvLog fmt _ => bool_decide (fmt = train_fmt) || bool_decide (fmt = valid_fmt)
  | _ => false
  end.

Definition is_valid_line (e : event C) : bool :=
  match e with
  | EvLog fmt _ => bool_decide (fmt = valid_fmt)
  | _ => false
  end.

(** The [distributed] flag an event carries, if it carries one. *)
Definition flag_of (e : event C) : option bool :=
  match e with
  | EvGetDataLoaders d _ _ => Some d
  | EvGetTrainer _ d _ _ _ _ => Some d
  | _ => None
  end.

(** The device plan an event carries, if it carries one. *)
Definition devices_of (e : event C) : option (list Z) :=
  match e with
  | EvChooseGpus (Ok plan) => Some plan
  | EvLog "Using GPUs %s" [AInts plan] => Some plan
  | EvGetTrainer _ _ devices _ _ _ => Some devices
  | _ => None
  end.

(** The configuration that [load_config] returned in this run. *)
Fixpoint loaded_config (tr : list (event C)) : option yaml :=
  match tr with
  | [] => None
  | EvLoadConfig _ (Ok cfg) :: _ => Some cfg
  | _ :: tr => loaded_config tr
  end.

Fixpoint count (P : event C -> bool) (tr : list (event C)) : nat :=
  match tr with
  | [] => 0
  | e :: tr => (if P e then 1 else 0) + count P tr
  end.

(** Some event of the trace is a [P]. *)
Definition occurs (P : event C -> bool) (tr : list (event C)) : Prop :=
  exists i e, tr !! i = Some e /\ P e = true.

(** Every [P] of the trace comes strictly before every [Q] of it. *)
Definition all_before (P Q : event C -> bool) (tr : list (event C))
  : Prop :=
  forall i j x y,
    tr !! i = Some x -> tr !! j = Some y ->
    P x = true -> Q y = true -> (i < j)%nat.

(** Every [Q] of the trace has some [P] strictly before it. *)
Definition preceded_by (Q P : event C -> bool) (tr : list (event C))
  : Prop :=
  forall j y,
    tr !! j = Some y -> Q y = true ->
    exists i x, (i < j)%nat /\ tr !! i = Some x /\ P x = true.

(** At every [P] of the trace exactly [n] events [B] have been seen. *)
Definition passed (B : event C -> bool) (n : nat) (P : event C -> bool)
    (tr : list (event C)) : Prop :=
  forall j e,
    tr !! j = Some e -> P e = true -> count B (take j tr) = n.

(** At every [B] of the trace as many events [P] have been seen as
    events [B]. *)
Definition in_step (P B : event C -> bool) (tr : list (event C)) : Prop :=
  forall j e,
    tr !! j = Some e -> B e = true ->
    count P (take j tr) = count B (take j tr).

(** The same five, as functions that run on a trace. *)
Fixpoint all_beforeb (P Q : event C -> bool) (tr : list (event C))
  : bool :=
  match tr with
  | [] => true
  | e :: tr =>
      (negb (Q e) || (negb (P e) && negb (existsb P tr)))
      && all_beforeb P Q tr
  end.

Fixpoint preceded_from (seen : bool) (Q P : event C -> bool)
    (tr : list (event C)) : bool :=
  match tr with
  | [] => true
  | e :: tr => (negb (Q e) || seen) && preceded_from (seen || P e) Q P tr
  end.

Definition preceded_byb (Q P : event C -> bool) (tr : list (event C))
  : bool :=
  preceded_from false Q P tr.

Fixpoint passed_from (k : nat) (B : event C -> bool) (n : nat)
    (P : event C -> bool) (tr : list (event C)) : bool :=
  match tr with
  | [] => true
  | e :: tr =>
      (negb (P e) || Nat.eqb k n)
      && passed_from ((if B e then 1 else 0) + k) B n P tr
  end.

Fixpoint in_step_from (p b : nat) (P B : event C -> bool)
    (tr : list (event C)) : bool :=
  match tr with
  | [] => true
  | e :: tr =>
      (negb (B e) || Nat.eqb p b)
      && in_step_from ((if P e then 1 else 0) + p)
                      ((if B e then 1 else 0) + b) P B tr
  end.

Definition in_stepb (P B : event C -> bool) (tr : list (event C)) : bool :=
  in_step_from 0 0 P B tr.

Definition passedb (B : event C -> bool) (n : nat) (P : event C -> bool)
    (tr : list (event C)) : bool :=
  passed_from 0 B n P tr.

(** The exception a call raised, if it raised. *)
Definition raised (e : event C) : option exn :=
  match e with
  | EvInitWorkers _ (Err x) | EvLoadConfig _ (Err x) | EvMakedirs _ (Err x)
  | EvConfigLogging _ _ _ (Err x) | EvBarrier (Err x)
  | EvGetDataLoaders _ _ (Err x) | EvChooseGpus (Err x)
  | EvGetTrainer _ _ _ _ _ (Err x) | EvBuild _ _ (Err x)
  | EvLoadCheckpoint _ (Err x) | EvTrain _ _ _ _ (Err x) => Some x
  | _ => None
  end.

Definition is_init_workers (e : event C) : bool :=
  match e with EvInitWorkers _ _ => true | _ => false end.

Definition is_load_config (e : event C) : bool :=
  match e with EvLoadConfig _ _ => true | _ => false end.

Definition is_makedirs (e : event C) : bool :=
  match e with EvMakedirs _ _ => true | _ => false end.

Definition is_config_logging (e : event C) : bool :=
  match e with EvConfigLogging _ _ _ _ => true | _ => false end.

Definition is_build (e : event C) : bool :=
  match e with EvBuild _ _ _ => true | _ => false end.

Definition is_mean (e : event C) : bool :=
  match e with EvMean _ _ => true | _ => false end.

(** The line of lines 69-70. *)
Definition is_config_line (e : event C) : bool :=
  match e with
  | EvLog fmt _ => bool_decide (fmt = "Configuration: %s")
  | _ => false
  end.

(** The line of lines 90-91. *)
Definition is_gpu_line (e : event C) : bool :=
  match e with
  | EvLog fmt _ => bool_decide (fmt = "Using GPUs %s")
  | _ => false
  end.

(** The rank and world size that [init_workers] returned in this run. *)
Fixpoint topology (tr : list (event C)) : option (Z * Z) :=
  match tr with
  | [] => None
  | EvInitWorkers _ (Ok ids) :: _ => Some ids
  | _ :: tr => topology tr
  end.

(** The loaders that [get_data_loaders] returned in this run. *)
Fixpoint built_loaders (tr : list (event C))
  : option (loader C * option (loader C)) :=
  match tr with
  | [] => None
  | EvGetDataLoaders _ _ (Ok ls) :: _ => Some ls
  | _ :: tr => built_loaders tr
  end.

(** The device plan that lines 78-89 assigned in this run. *)
Fixpoint planned (tr : list (event C)) : option (list Z) :=
  match tr with
  | [] => None
  | EvChooseGpus (Ok plan) :: _ => Some plan
  | _ :: tr => planned tr
  end.

(** The trainer that [get_trainer] returned in this run. *)
Fixpoint built_trainer (tr : list (event C)) : option (trainer C) :=
  match tr with
  | [] => None
  | EvGetTrainer _ _ _ _ _ (Ok t) :: _ => Some t
  | _ :: tr => built_trainer tr
  end.

(** The summary that [train()] returned in this run. *)
Fixpoint trained_summary (tr : list (event C))
  : option (gmap string (series C)) :=
  match tr with
  | [] => None
  | EvTrain _ _ _ _ (Ok s) :: _ => Some s
  | _ :: tr => trained_summary tr
  end.

(** What a call works on, against what the run produced before: the
    trainer's methods get the trainer that [get_trainer] returned,
    [train()] the loaders that [get_data_loaders] returned, and
    [get_trainer] the rank of [init_workers] and the device plan. *)
Definition well_fed (tr : list (event C)) (e : event C) : Prop :=
  match e with
  | EvGetTrainer _ _ devices rank _ _ =>
      planned tr = Some devices /\ exists n, topology tr = Some (rank, n)
  | EvBuild t cfg _ => built_trainer tr = Some t /\ loaded_config tr = Some cfg
  | EvLoadCheckpoint t _ => built_trainer tr = Some t
  | EvTrain t tl vl _ _ =>
      built_trainer tr = Some t /\ built_loaders tr = Some (tl, vl)
  | _ => True
  end.

(** How the output directory [dir] and the log file [log_file] show in
    a call: [makedirs] creates [dir], [config_logging] gets the
    verbosity, [log_file] and the resume flag as [append], and
    [get_trainer] gets [dir]. *)
Definition set_up (args : Args) (dir log_file : option string)
    (e : event C) : Prop :=
  match e with
  | EvMakedirs x _ => dir = Some x
  | EvConfigLogging v lf ap _ =>
      v = verbose args /\ lf = log_file /\ ap = resume args
  | EvGetTrainer _ _ _ _ od _ => od = dir
  | _ => True
  end.

(** What a call takes from the configuration [d]: [get_data_loaders]
    the ['data'] section, [get_trainer] the ['trainer'] entry, [build]
    the whole configuration and [train()] the ['train'] section; a
    section passed as keywords is a mapping without the keywords the
    call already has. *)
Definition fed_from (d : gmap string yaml) (e : event C) : Prop :=
  match e with
  | EvGetDataLoaders _ kw _ =>
      d !! "data" = Some (YDict kw) /\ kw !! "distributed" = None
  | EvGetTrainer name _ _ _ _ _ => d !! "trainer" = Some name
  | EvBuild _ cfg _ => cfg = YDict d
  | EvTrain _ _ _ kw _ =>
      d !! "train" = Some (YDict kw) /\
      kw !! "train_data_loader" = None /\ kw !! "valid_data_loader" = None
  | _ => True
  end.

End Traces.

(** ** A small concrete set of collaborators

    A single process ([unit] world) whose configuration file holds
    [cfg], whose topology is [ids], and whose data-loader factory
    returns a train loader of 1000 samples and the validation loader
    [vl]; a loader is its number of samples, rationals stand for the
    floating-point numbers, and nothing raises. *)

Module Demo.

Definition mean_of (l : list Z) : Q :=
  Qdiv (inject_Z (foldr Z.add 0 l)) (inject_Z (Z.of_nat (length l))).

Definition collab (cfg : yaml) (ids : Z * Z) (vl : option Z) : Collab := {|
  World := unit;
  loader := Z;
  trainer := unit;
  series := list Z;
  num := Q;
  init_workers := fun _ w => (w, Ok ids);
  load_config := fun _ w => (w, Ok cfg);
  expandvars := fun s => s;
  makedirs := fun _ w => (w, Ok tt);
  path_join := fun a b => a +:+ "/" +:+ b;
  config_logging := fun _ _ _ w => (w, Ok tt);
  gethostname := fun _ => "localhost";
  try_barrier := fun w => (w, Ok tt);
  get_data_loaders := fun _ _ w => (w, Ok (1000, vl));
  get_trainer := fun _ _ _ _ _ w => (w, Ok tt);
  build := fun _ _ w => (w, Ok tt);
  load_checkpoint := fun _ w => (w, Ok tt);
  train := fun _ _ _ _ w =>
    (w, Ok (<["train_time" := [2; 4]]> (<["valid_time" := [1]]> ∅)));
  sampler_len := fun n => n;
  np_mean := mean_of;
  truediv := fun n x => Qdiv (inject_Z n) x
|}.

(** The configuration of the end-to-end scenario. *)
Definition hello : gmap string yaml :=
  <["trainer" := YStr "basic"]>
    (<["data" := YDict (<["batch_size" := YInt 32]> ∅)]>
       (<["train" := YDict (<["epochs" := YInt 1]> ∅)]> ∅)).

Definition cli : Args := {|
  config := "configs/hello.yaml";
  distributed_backend := None;
  gpus := None;
  ranks_per_node := 8;
  gpus_per_rank := None;
  resume := false;
  verbose := false
|}.

Definition cli_resume : Args := {|
  config := "configs/hello.yaml";
  distributed_backend := None;
  gpus := None;
  ranks_per_node := 8;
  gpus_per_rank := None;
  resume := true;
  verbose := false
|}.

(** [--ranks-per-node rpn --gpus-per-rank g] *)
Definition cli_per_rank (rpn g : Z) : Args := {|
  config := "configs/hello.yaml";
  distributed_backend := None;
  gpus := None;
  ranks_per_node := rpn;
  gpus_per_rank := Some g;
  resume := false;
  verbose := false
|}.

(** [--gpus l --gpus-per-rank g] *)
Definition cli_gpus (l : list Z) (g : Z) : Args := {|
  config := "configs/hello.yaml";
  distributed_backend := None;
  gpus := Some l;
  ranks_per_node := 8;
  gpus_per_rank := Some g;
  resume := false;
  verbose := false
|}.

(** The end-to-end scenario: one process, no validation loader. *)
Definition single : Collab := collab (YDict hello) (0, 1) None.

(** The same with a validation loader of 200 samples. *)
Definition validated : Collab := collab (YDict hello) (0, 1) (Some 200).

(** The same configuration without its ['train'] section. *)
Definition hello_without_train : gmap string yaml := delete "train" hello.

Definition untrained : Collab :=
  collab (YDict hello_without_train) (0, 1) None.

(** A collaborator set whose [train()] returns the summary [s]. *)
Definition with_summary (C : Collab) (s : gmap string (series C)) : Collab := {|
  World := World C;
  loader := loader C;
  trainer := trainer C;
  series := series C;
  num := num C;
  init_workers := init_workers C;
  load_config := load_config C;
  expandvars := expandvars C;
  makedirs := makedirs C;
  path_join := path_join C;
  config_logging := config_logging C;
  gethostname := gethostname C;
  try_barrier := try_barrier C;
  get_data_loaders := get_data_loaders C;
  get_trainer := get_trainer C;
  build := build C;
  load_checkpoint := load_checkpoint C;
  train := fun _ _ _ _ w => (w, Ok s);
  sampler_len := sampler_len C;
  np_mean := np_mean C;
  truediv := truediv C
|}.

(** A trainer that times training only, with a validation loader. *)
Definition terse : Collab :=
  with_summary validated (<["train_time" := [2; 4]]> ∅).

(** The configuration with an output directory. *)
Definition hello_out : gmap string yaml :=
  <["output_dir" := YStr "$SCRATCH/out"]> hello.

Definition archived : Collab := collab (YDict hello_out) (0, 1) None.


End Demo.

(** * Properties *)

(** ** The device plan *)

Lemma py_mod_nonzero a b : b <> 0 -> py_mod a b = Ok (a mod b).
Proof. intros Hb. unfold py_mod. by destruct (Z.eqb_spec b 0). Qed.

Lemma py_mod_zero a : py_mod a 0 = Err ZeroDivisionError.
Proof. reflexivity. Qed.

(** The per-rank-count mode, as the list comprehension of line 83. *)
Lemma choose_gpus_per_rank args rank n_ranks g :
  gpus args = None ->
  gpus_per_rank args = Some g ->
  Z.min (ranks_per_node args) n_ranks <> 0 ->
  choose_gpus args rank n_ranks =
    Ok ((fun i => i * Z.min (ranks_per_node args) n_ranks
                  + rank mod Z.min (ranks_per_node args) n_ranks)
          <$> range g).
Proof.
  intros Hl Hg Hls. unfold choose_gpus.
  by rewrite Hl, Hg, py_mod_nonzero.
Qed.

(** With a zero [local_size] line 82 divides by zero, whatever the count. *)
Lemma choose_gpus_zero_local_size args rank n_ranks g :
  gpus args = None ->
  gpus_per_rank args = Some g ->
  Z.min (ranks_per_node args) n_ranks = 0 ->
  choose_gpus args rank n_ranks = Err ZeroDivisionError.
Proof.
  intros Hl Hg Hls. unfold choose_gpus. by rewrite Hl, Hg, Hls.
Qed.

Lemma range_lookup g i :
  0 <= i < g -> range g !! Z.to_nat i = Some i.
Proof.
  intros Hi. unfold range. rewrite lookup_seqZ_lt by lia. f_equal. lia.
Qed.

(** C1. Without an explicit device list and with a positive
    [gpus_per_rank], the device plan has [gpus_per_rank] entries and its
    entry [i] is [i * local_size + local_rank], where
    [local_size = min(ranks_per_node, world_size)] and
    [local_rank = rank mod local_size] (the plan exists where that
    modulo does, [local_size <> 0]); for [ranks_per_node = 8],
    [gpus_per_rank = 2], [world_size = 16] and [rank = 9] the plan is
    [[1; 9]]. *)
Theorem device_plan_formula :
  (forall args rank n_ranks g,
     gpus args = None ->
     gpus_per_rank args = Some g ->
     0 < g ->
     let local_size := Z.min (ranks_per_node args) n_ranks in
     let local_rank := rank mod local_size in
     local_size <> 0 ->
     exists plan,
       choose_gpus args rank n_ranks = Ok plan /\
       Z.of_nat (length plan) = g /\
       forall i, 0 <= i < g ->
         plan !! Z.to_nat i = Some (i * local_size + local_rank)) /\
  (forall args,
     gpus args = None ->
     ranks_per_node args = 8 ->
     gpus_per_rank args = Some 2 ->
     choose_gpus args 9 16 = Ok [1; 9]).
Proof.
  split.
  - intros args rank n_ranks g Hl Hg Hpos local_size local_rank Hls.
    eexists. split; [by apply choose_gpus_per_rank|]. split.
    + rewrite length_fmap. unfold range. rewrite length_seqZ. lia.
    + intros i Hi. by rewrite list_lookup_fmap, range_lookup.
  - intros args Hl Hr Hg. unfold choose_gpus. by rewrite Hl, Hg, Hr.
Qed.

(** Two entries of plans on one node coincide only at the same position
    of the same local rank. *)
Lemma strided_injective ls i j a b :
  0 <= a < ls -> 0 <= b < ls ->
  i * ls + a = j * ls + b -> i = j /\ a = b.
Proof. intros Ha Hb Heq. assert (i = j) by nia. subst. lia. Qed.

(** C2. For [world_size >= 1], [ranks_per_node >= 1] and
    [gpus_per_rank >= 1], two distinct ranks on the same node (equal
    [rank / local_size], the floored quotient) get device plans that are
    disjoint as sets of device ids. *)
Theorem device_plans_disjoint args n_ranks g r1 r2 :
  gpus args = None ->
  gpus_per_rank args = Some g ->
  1 <= n_ranks ->
  1 <= ranks_per_node args ->
  1 <= g ->
  let local_size := Z.min (ranks_per_node args) n_ranks in
  r1 <> r2 ->
  r1 `div` local_size = r2 `div` local_size ->
  exists p1 p2,
    choose_gpus args r1 n_ranks = Ok p1 /\
    choose_gpus args r2 n_ranks = Ok p2 /\
    (list_to_set p1 : gset Z) ## list_to_set p2.
Proof.
  intros Hl Hg Hn Hr Hpos local_size Hne Hnode.
  assert (0 < local_size) as Hls by (unfold local_size; lia).
  do 2 eexists. split; [apply choose_gpus_per_rank; try done; lia|].
  split; [apply choose_gpus_per_rank; try done; lia|].
  fold local_size. intros d Hd1 Hd2.
  apply elem_of_list_to_set, list_elem_of_fmap in Hd1 as (i & -> & _).
  apply elem_of_list_to_set, list_elem_of_fmap in Hd2 as (j & Heq & _).
  pose proof (Z.mod_pos_bound r1 local_size Hls).
  pose proof (Z.mod_pos_bound r2 local_size Hls).
  apply strided_injective in Heq as [_ Hmod]; [|done..].
  apply Hne.
  rewrite (Z.div_mod r1 local_size), (Z.div_mod r2 local_size) by lia.
  by rewrite Hnode, Hmod.
Qed.

(** ** Runs: checking a trace by computation *)

Section TraceChecks.
Context {C : Collab}.
Implicit Types (P Q B : event C -> bool) (tr : list (event C)).

Lemma occurs_existsb P tr : occurs P tr <-> existsb P tr = true.
Proof.
  unfold occurs. rewrite existsb_exists. split.
  - intros (i & e & Hi & HP). exists e. split; [|done].
    apply list_elem_of_In, list_elem_of_lookup. eauto.
  - intros (e & Hin & HP).
    apply list_elem_of_In, list_elem_of_lookup in Hin as [i Hi]. eauto.
Qed.

Lemma not_occurs_existsb P tr : existsb P tr = false -> ~ occurs P tr.
Proof. rewrite occurs_existsb. congruence. Qed.

Lemma all_beforeb_sound P Q tr :
  all_beforeb P Q tr = true -> all_before P Q tr.
Proof.
  induction tr as [|e tr IH]; intros Hb i j x y Hi Hj HP HQ; [done|].
  cbn in Hb. apply andb_prop in Hb as [Hhd Htl].
  destruct j as [|j]; cbn in Hj.
  - injection Hj as ->. rewrite HQ in Hhd. cbn in Hhd.
    apply andb_prop in Hhd as [Hx Hex].
    destruct i as [|i]; cbn in Hi.
    + injection Hi as ->. by rewrite HP in Hx.
    + assert (existsb P tr = true) as Hyes
        by (apply occurs_existsb; exists i, x; done).
      by rewrite Hyes in Hex.
  - destruct i as [|i]; [lia|]. cbn in Hi.
    specialize (IH Htl i j x y Hi Hj HP HQ). lia.
Qed.

Lemma preceded_from_sound seen Q P tr :
  preceded_from seen Q P tr = true ->
  forall j y, tr !! j = Some y -> Q y = true ->
    seen = true \/
    exists i x, (i < j)%nat /\ tr !! i = Some x /\ P x = true.
Proof.
  revert seen. induction tr as [|e tr IH]; intros seen Hb j y Hj HQ; [done|].
  cbn in Hb. apply andb_prop in Hb as [Hhd Htl].
  destruct j as [|j]; cbn in Hj.
  - injection Hj as ->. rewrite HQ in Hhd. cbn in Hhd. by left.
  - destruct (IH _ Htl j y Hj HQ) as [Hseen|(i & x & Hlt & Hi & HP)].
    + apply orb_prop in Hseen as [->|HP]; [by left|].
      right. exists 0%nat, e. split; [lia|done].
    + right. exists (S i), x. split; [lia|done].
Qed.

Lemma preceded_byb_sound Q P tr :
  preceded_byb Q P tr = true -> preceded_by Q P tr.
Proof.
  intros Hb j y Hj HQ.
  by destruct (preceded_from_sound _ _ _ _ Hb j y Hj HQ).
Qed.

Lemma passed_from_sound k B n P tr :
  passed_from k B n P tr = true ->
  forall j e, tr !! j = Some e -> P e = true ->
    (count B (take j tr) + k)%nat = n.
Proof.
  revert k. induction tr as [|x tr IH]; intros k Hb j e Hj HP; [done|].
  cbn in Hb. apply andb_prop in Hb as [Hhd Htl].
  destruct j as [|j]; cbn in Hj.
  - injection Hj as ->. rewrite HP in Hhd. cbn in Hhd.
    by apply Nat.eqb_eq in Hhd.
  - cbn. rewrite <- (IH _ Htl j e Hj HP). lia.
Qed.

Lemma passedb_sound B n P tr :
  passedb B n P tr = true -> passed B n P tr.
Proof.
  intros Hb j e Hj HP.
  rewrite <- (passed_from_sound _ _ _ _ _ Hb j e Hj HP). lia.
Qed.

Lemma in_step_from_sound p b P B tr :
  in_step_from p b P B tr = true ->
  forall j e, tr !! j = Some e -> B e = true ->
    (count P (take j tr) + p)%nat = (count B (take j tr) + b)%nat.
Proof.
  revert p b. induction tr as [|x tr IH]; intros p b Hb j e Hj HB; [done|].
  cbn in Hb. apply andb_prop in Hb as [Hhd Htl].
  destruct j as [|j]; cbn in Hj.
  - injection Hj as ->. rewrite HB in Hhd. cbn in Hhd.
    by apply Nat.eqb_eq in Hhd.
  - cbn. specialize (IH _ _ Htl j e Hj HB). lia.
Qed.

Lemma in_stepb_sound P B tr : in_stepb P B tr = true -> in_step P B tr.
Proof.
  intros Hb j e Hj HB.
  pose proof (in_step_from_sound _ _ _ _ _ Hb j e Hj HB). lia.
Qed.

(** A property of every event of a trace, checked event by event. *)
Lemma each_event (Pr : event C -> Prop) tr :
  Forall Pr tr -> forall e, e ∈ tr -> Pr e.
Proof. intros H e He. by eapply Forall_forall in H. Qed.

End TraceChecks.

(** ** Runs: executing [main] along every path

    [run_main] unfolds [main] and splits on the outcome of each call and
    on each test, innermost first; every path ends with the trace of
    that path written out and the outcome of the run. *)

#[local] Arguments choose_gpus : simpl never.
#[local] Arguments getitem : simpl never.
#[local] Arguments as_kwargs : simpl never.
#[local] Arguments dict_get : simpl never.
#[local] Arguments lookup_key : simpl never.
#[local] Arguments log_name : simpl never.

Ltac run_step :=
  match goal with
  | |- context [match ?x with _ => _ end] =>
      lazymatch x with
      | context [match _ with _ => _ end] => fail
      | _ => idtac
      end;
      destruct x eqn:?
  end; cbn beta iota zeta delta [fst snd trace world app].

Ltac run_main :=
  match goal with
  | |- context [run ?C ?args ?w] =>
      pattern (run C args w);
      let Φ := fresh "Φ" in
      match goal with |- ?F _ => set (Φ := F) end;
      unfold run, main, bind, call, note, info, lift, when, ret, gets, mean;
      cbn beta iota zeta delta [fst snd trace world app];
      repeat run_step;
      subst Φ; cbn beta iota zeta delta [fst snd trace world]
  end.

Ltac occurs_now := apply occurs_existsb; reflexivity.

Ltac every_event :=
  match goal with
  | |- forall e, e ∈ ?tr -> @?P e => apply (each_event P tr)
  end.

Ltac in_trace :=
  solve [repeat first [apply list_elem_of_here | apply list_elem_of_further]].

Lemma lookup_key_Ok {A} (d : gmap string A) k v :
  lookup_key d k = Ok v -> d !! k = Some v.
Proof. unfold lookup_key. destruct (d !! k); congruence. Qed.

Lemma getitem_missing d k :
  d !! k = None -> getitem (YDict d) k = Err (KeyError k).
Proof. intros H. unfold getitem, lookup_key. by rewrite H. Qed.

(** ** The order of the calls *)

(** C7. [main] calls the barrier at most twice, and exactly twice in a
    run that completes.  Every barrier comes after logging has been
    configured; exactly one barrier has been passed when the data
    loaders, the device plan and the trainer are constructed and when
    [train()] is called, so the first barrier precedes all of them; at
    each barrier as many calls of [train()] have returned as barriers
    have been passed, none at the first and one at the second; exactly
    two barriers have been passed when a summary statistic is computed
    or reported.  A completed run contains the constructions, the
    return of [train()] and the statistics. *)
Theorem two_barriers C args w :
  let tr := trace (run C args w).1 in
  let r := (run C args w).2 in
  (count is_barrier tr <= 2)%nat /\
  preceded_by is_barrier is_logging_ready tr /\
  passed is_barrier 1 is_construction tr /\
  passed is_barrier 1 is_train tr /\
  in_step is_trained is_barrier tr /\
  passed is_barrier 2 is_statistic tr /\
  (is_ok r = true ->
   count is_barrier tr = 2%nat /\
   occurs is_construction tr /\ occurs is_trained tr /\
   occurs is_statistic tr).
Proof.
  cbv zeta. run_main.
  all: split; [cbn; lia|].
  all: split; [apply preceded_byb_sound; reflexivity|].
  all: do 2 (split; [apply passedb_sound; reflexivity|]).
  all: split; [apply in_stepb_sound; reflexivity|].
  all: split; [apply passedb_sound; reflexivity|].
  all: intros Hok; try discriminate Hok.
  all: split; [reflexivity|].
  all: repeat split; occurs_now.
Qed.

(** C4. [load_checkpoint()] is called only when the resume flag is set,
    at most once, after [get_trainer] has returned the trainer and
    after [trainer.build] has returned, and before any call of
    [train()]; with the resume flag set, a call of [train()] comes only
    after [load_checkpoint()] has returned.  Hence in a run that
    completes, where the trainer is constructed and [train()] is called,
    [load_checkpoint()] is called if and only if the resume flag is
    set. *)
Theorem resume_ordering C args w :
  let tr := trace (run C args w).1 in
  let r := (run C args w).2 in
  (occurs is_load_checkpoint tr -> resume args = true) /\
  (count is_load_checkpoint tr <= 1)%nat /\
  preceded_by is_load_checkpoint is_trainer_built tr /\
  preceded_by is_load_checkpoint is_model_built tr /\
  all_before is_load_checkpoint is_train tr /\
  (resume args = true -> preceded_by is_train is_resumed tr) /\
  (is_ok r = true ->
   occurs is_trainer_built tr /\ occurs is_train tr /\
   (occurs is_load_checkpoint tr <-> resume args = true)).
Proof.
  cbv zeta. run_main.
  all: split; [rewrite occurs_existsb; cbn; congruence|].
  all: split; [cbn; lia|].
  all: do 2 (split; [apply preceded_byb_sound; reflexivity|]).
  all: split; [apply all_beforeb_sound; reflexivity|].
  all: split; [intros Hres; try congruence;
               apply preceded_byb_sound; reflexivity|].
  all: intros Hok; try discriminate Hok.
  all: do 2 (split; [occurs_now|]).
  all: rewrite occurs_existsb; cbn; split; congruence.
Qed.

(** C6. In every run the [distributed] flag given to
    [get_data_loaders] and to [get_trainer] is [True] exactly when a
    distributed backend was selected on the command line, whatever
    world size [init_workers] reports; a run that completes makes both
    calls. *)
Theorem distributed_flag C args w :
  let tr := trace (run C args w).1 in
  let r := (run C args w).2 in
  (forall e, e ∈ tr -> forall d, flag_of e = Some d ->
     d = match distributed_backend args with
         | Some _ => true
         | None => false
         end) /\
  (is_ok r = true ->
   occurs is_get_data_loaders tr /\ occurs is_get_trainer tr).
Proof.
  cbv zeta. run_main.
  all: split; [|intros Hok; try discriminate Hok; split; occurs_now].
  all: every_event.
  all: repeat (constructor; [cbn; try congruence|]); try constructor.
  all: intros d [= <-]; by destruct (distributed_backend args).
Qed.

(** ** The final report *)

(** C8. A run that completes logs the train line with the number of
    samples of this worker's own train loader (the one its
    [get_data_loaders] returned and [train()] received), the mean of
    the summary's [train_time] and the quotient of the two; with a
    validation loader it logs the validation line, built in the same
    way from that loader and [valid_time], and without one it logs no
    validation line.  In any run a validation line is logged only if
    [get_data_loaders] returned a validation loader. *)
Theorem final_report C args w :
  let tr := trace (run C args w).1 in
  let r := (run C args w).2 in
  (is_ok r = true ->
   exists d kw tl vl t kw' summary times,
     EvGetDataLoaders d kw (Ok (tl, vl)) ∈ tr /\
     EvTrain t tl vl kw' (Ok summary) ∈ tr /\
     summary !! "train_time" = Some times /\
     EvLog train_fmt
       [AInt (sampler_len C tl); ANum (np_mean C times);
        ANum (truediv C (sampler_len C tl) (np_mean C times))] ∈ tr /\
     match vl with
     | Some v =>
         exists vtimes,
           summary !! "valid_time" = Some vtimes /\
           EvLog valid_fmt
             [AInt (sampler_len C v); ANum (np_mean C vtimes);
              ANum (truediv C (sampler_len C v) (np_mean C vtimes))] ∈ tr
     | None => ~ occurs is_valid_line tr
     end) /\
  (occurs is_valid_line tr ->
   exists d kw tl v, EvGetDataLoaders d kw (Ok (tl, Some v)) ∈ tr).
Proof.
  cbv zeta. run_main.
  all: split;
    [intros Hok; try discriminate Hok
    |intros Hocc; try (apply occurs_existsb in Hocc; discriminate Hocc)].
  all: try (do 4 eexists; in_trace).
  all: do 8 eexists.
  all: do 2 (split; [in_trace|]).
  all: split; [by apply lookup_key_Ok|].
  all: split; [in_trace|].
  all: try (apply not_occurs_existsb; reflexivity).
  all: eexists; split; [by apply lookup_key_Ok|in_trace].
Qed.

(** ** A configuration that lacks a required key *)

(** C3, as the code has it.  When the loaded configuration is a mapping
    that lacks a required key the run never completes, and the key is
    missed where it is used: without ['data'] no data loader and no
    trainer is constructed, and the run that passed the first barrier
    ends in [KeyError('data')]; without ['trainer'] no trainer is
    constructed, and the run that computed its device plan ends in
    [KeyError('trainer')]; without ['train'] [train()] is never called,
    and the run whose trainer was built (and resumed, under the resume
    flag) ends in [KeyError('train')]. *)
Theorem missing_key_aborts C args w d :
  let tr := trace (run C args w).1 in
  let r := (run C args w).2 in
  loaded_config tr = Some (YDict d) ->
  (d !! "data" = None ->
   is_ok r = false /\
   ~ occurs is_get_data_loaders tr /\ ~ occurs is_get_trainer tr /\
   (occurs is_barrier_passed tr -> r = Err (KeyError "data"))) /\
  (d !! "trainer" = None ->
   is_ok r = false /\
   ~ occurs is_get_trainer tr /\
   (occurs is_planned tr -> r = Err (KeyError "trainer"))) /\
  (d !! "train" = None ->
   is_ok r = false /\
   ~ occurs is_train tr /\
   (occurs (if resume args then is_resumed else is_model_built) tr ->
    r = Err (KeyError "train"))).
Proof.
  cbv zeta. run_main.
  all: cbn [loaded_config]; intros Hcfg; try discriminate Hcfg.
  all: injection Hcfg as ->.
  all: (split; [|split]); intros Hmiss%getitem_missing.
  all: try congruence.
  all: split; [reflexivity|].
  all: split; [apply not_occurs_existsb; reflexivity|].
  all: try (split; [apply not_occurs_existsb; reflexivity|]).
  all: rewrite occurs_existsb; try (cbn; congruence).
  all: destruct (resume args); cbn; congruence.
Qed.

(** ** The device plan of a run *)

(** Whatever plan [choose_gpus] settles on is the one a run logs and
    hands to [get_trainer]. *)
Lemma run_devices C args w plan :
  (forall rank n_ranks plan',
     choose_gpus args rank n_ranks = Ok plan' -> plan' = plan) ->
  forall e, e ∈ trace (run C args w).1 ->
  forall devs, devices_of e = Some devs -> devs = plan.
Proof.
  intros Hplan. run_main.
  all: every_event.
  all: repeat (constructor; [cbn; try congruence|]); try constructor.
  all: intros devs [= <-]; eauto.
Qed.

(** C5. With an explicit device list the plan is that list, same
    elements in the same order, whatever the list holds (the empty list
    included), whatever [gpus_per_rank] and [ranks_per_node] are and for
    every rank and world size; it is the plan every run logs and gives
    to [get_trainer]. *)
Theorem explicit_list_verbatim args l :
  gpus args = Some l ->
  (forall rank n_ranks, choose_gpus args rank n_ranks = Ok l) /\
  (forall C w e, e ∈ trace (run C args w).1 ->
   forall devs, devices_of e = Some devs -> devs = l).
Proof.
  intros Hl.
  assert (forall rank n_ranks, choose_gpus args rank n_ranks = Ok l) as Hplan
    by (intros; unfold choose_gpus; by rewrite Hl).
  split; [done|]. intros C w. apply run_devices.
  intros rank n_ranks plan'. rewrite Hplan. congruence.
Qed.

(** C9. With neither an explicit device list nor [gpus_per_rank] the
    plan is computed without error and is the empty list, for every
    rank, world size and [ranks_per_node]; it is the plan every run
    gives to [get_trainer]. *)
Theorem default_cpu_mode args :
  gpus args = None ->
  gpus_per_rank args = None ->
  (forall rank n_ranks, choose_gpus args rank n_ranks = Ok []) /\
  (forall C w e, e ∈ trace (run C args w).1 ->
   forall devs, devices_of e = Some devs -> devs = []).
Proof.
  intros Hl Hg.
  assert (forall rank n_ranks, choose_gpus args rank n_ranks = Ok []) as Hplan
    by (intros; unfold choose_gpus; by rewrite Hl, Hg).
  split; [done|]. intros C w. apply run_devices.
  intros rank n_ranks plan'. rewrite Hplan. congruence.
Qed.

(** C10, as the code has it.  Without an explicit device list and with
    [local_size = min(ranks_per_node, world_size)] different from zero:
    a zero or negative [gpus_per_rank] gives the empty plan without
    error, the result of the default mode; a positive [gpus_per_rank]
    gives a plan of exactly [gpus_per_rank] entries, strictly
    increasing when [local_size] is positive. *)
Theorem count_edge_cases args rank n_ranks g :
  gpus args = None ->
  gpus_per_rank args = Some g ->
  let local_size := Z.min (ranks_per_node args) n_ranks in
  local_size <> 0 ->
  (g <= 0 ->
   choose_gpus args rank n_ranks = Ok [] /\
   forall args', gpus args' = None -> gpus_per_rank args' = None ->
     choose_gpus args rank n_ranks = choose_gpus args' rank n_ranks) /\
  (0 < g ->
   exists plan,
     choose_gpus args rank n_ranks = Ok plan /\
     Z.of_nat (length plan) = g /\
     (0 < local_size -> increasing plan)).
Proof.
  intros Hl Hg local_size Hls.
  rewrite (choose_gpus_per_rank args rank n_ranks g Hl Hg Hls).
  fold local_size. split.
  - intros Hle. unfold range. rewrite seqZ_nil by done. split; [done|].
    intros args' Hl' Hg'. unfold choose_gpus. by rewrite Hl', Hg'.
  - intros Hpos. eexists. split; [done|]. split.
    + rewrite length_fmap. unfold range. rewrite length_seqZ. lia.
    + intros Hlspos i j a b Hij.
      rewrite !list_lookup_fmap. unfold range.
      intros (x & Hx & ->)%fmap_Some (y & Hy & ->)%fmap_Some.
      apply lookup_seqZ in Hx as [-> _]. apply lookup_seqZ in Hy as [-> _].
      nia.
Qed.

(** ** Concrete runs *)

(** With [--ranks-per-node 0 --gpus-per-rank 0] on a single worker the
    planner divides by zero, where the default mode gives the empty
    plan; with [--ranks-per-node -2 --gpus-per-rank 2] the plan is
    [[0; -2]], which is not increasing. *)
Lemma count_edge_cases_need_local_size :
  choose_gpus (Demo.cli_per_rank 0 0) 0 1 = Err ZeroDivisionError /\
  choose_gpus Demo.cli 0 1 = Ok [] /\
  choose_gpus (Demo.cli_per_rank (-2) 2) 0 1 = Ok [0; -2] /\
  ~ increasing [0; -2].
Proof.
  repeat split; try reflexivity.
  intros Hinc.
  specialize (Hinc 0%nat 1%nat 0 (-2) ltac:(lia) eq_refl eq_refl). lia.
Qed.

(** A configuration without ['train']: the data loaders and the trainer
    are constructed, the model is built, and only then the run ends in
    [KeyError('train')]. *)
Lemma missing_train_found_late :
  Demo.hello_without_train !! "train" = None /\
  (run Demo.untrained Demo.cli tt).2 = Err (KeyError "train") /\
  occurs is_data_loaded (trace (run Demo.untrained Demo.cli tt).1) /\
  occurs is_trainer_built (trace (run Demo.untrained Demo.cli tt).1) /\
  occurs is_model_built (trace (run Demo.untrained Demo.cli tt).1).
Proof.
  split; [by vm_compute|]. split; [by vm_compute|].
  repeat split; apply occurs_existsb; by vm_compute.
Qed.

(** ** The theorems at concrete inputs *)

Lemma device_plan_formula_witness :
  exists plan,
    choose_gpus (Demo.cli_per_rank 8 2) 9 16 = Ok plan /\
    Z.of_nat (length plan) = 2 /\
    forall i, 0 <= i < 2 ->
      plan !! Z.to_nat i = Some (i * Z.min 8 16 + 9 mod Z.min 8 16).
Proof.
  apply (proj1 device_plan_formula (Demo.cli_per_rank 8 2) 9 16 2);
    [reflexivity | reflexivity | lia | vm_compute; discriminate].
Defined.

Lemma device_plans_disjoint_witness :
  exists p1 p2,
    choose_gpus (Demo.cli_per_rank 8 2) 1 16 = Ok p1 /\
    choose_gpus (Demo.cli_per_rank 8 2) 2 16 = Ok p2 /\
    (list_to_set p1 : gset Z) ## list_to_set p2.
Proof.
  apply (device_plans_disjoint (Demo.cli_per_rank 8 2) 16 2 1 2);
    [reflexivity | reflexivity | lia | cbn; lia | lia | lia | reflexivity].
Defined.

Lemma missing_key_aborts_witness :
  (run Demo.untrained Demo.cli tt).2 = Err (KeyError "train").
Proof.
  destruct (missing_key_aborts Demo.untrained Demo.cli tt
              Demo.hello_without_train) as (_ & _ & Htrain);
    [by vm_compute|].
  destruct Htrain as (_ & _ & Hend); [by vm_compute|].
  apply Hend. apply occurs_existsb. by vm_compute.
Defined.

Lemma resume_ordering_witness :
  occurs is_load_checkpoint (trace (run Demo.single Demo.cli_resume tt).1).
Proof.
  destruct (resume_ordering Demo.single Demo.cli_resume tt)
    as (_ & _ & _ & _ & _ & _ & Hdone).
  destruct Hdone as (_ & _ & Hiff); [by vm_compute|].
  apply Hiff. reflexivity.
Defined.

Lemma explicit_list_verbatim_witness :
  choose_gpus (Demo.cli_gpus [3; 1] 4) 9 16 = Ok [3; 1].
Proof.
  apply (proj1 (explicit_list_verbatim (Demo.cli_gpus [3; 1] 4) [3; 1]
                  eq_refl)).
Defined.

Lemma distributed_flag_witness :
  occurs is_get_data_loaders (trace (run Demo.single Demo.cli tt).1) /\
  occurs is_get_trainer (trace (run Demo.single Demo.cli tt).1).
Proof.
  apply (proj2 (distributed_flag Demo.single Demo.cli tt)). by vm_compute.
Defined.

Lemma two_barriers_witness :
  count is_barrier (trace (run Demo.single Demo.cli tt).1) = 2%nat.
Proof.
  destruct (two_barriers Demo.single Demo.cli tt)
    as (_ & _ & _ & _ & _ & _ & Hdone).
  apply Hdone. by vm_compute.
Defined.

Lemma final_report_witness :
  exists d kw tl vl t kw' summary times,
    EvGetDataLoaders d kw (Ok (tl, vl))
      ∈ trace (run Demo.validated Demo.cli tt).1 /\
    EvTrain t tl vl kw' (Ok summary)
      ∈ trace (run Demo.validated Demo.cli tt).1 /\
    summary !! "train_time" = Some times /\
    EvLog train_fmt
      [AInt (sampler_len Demo.validated tl);
       ANum (np_mean Demo.validated times);
       ANum (truediv Demo.validated (sampler_len Demo.validated tl)
               (np_mean Demo.validated times))]
      ∈ trace (run Demo.validated Demo.cli tt).1 /\
    match vl with
    | Some v =>
        exists vtimes,
          summary !! "valid_time" = Some vtimes /\
          EvLog valid_fmt
            [AInt (sampler_len Demo.validated v);
             ANum (np_mean Demo.validated vtimes);
             ANum (truediv Demo.validated (sampler_len Demo.validated v)
                     (np_mean Demo.validated vtimes))]
            ∈ trace (run Demo.validated Demo.cli tt).1
    | None => ~ occurs is_valid_line (trace (run Demo.validated Demo.cli tt).1)
    end.
Proof.
  apply (proj1 (final_report Demo.validated Demo.cli tt)). by vm_compute.
Defined.

Lemma default_cpu_mode_witness :
  choose_gpus Demo.cli 0 1 = Ok [].
Proof.
  apply (proj1 (default_cpu_mode Demo.cli eq_refl eq_refl)).
Defined.

Lemma count_edge_cases_witness :
  choose_gpus (Demo.cli_per_rank 8 0) 0 1 = Ok [] /\
  exists plan,
    choose_gpus (Demo.cli_per_rank 8 2) 9 16 = Ok plan /\
    Z.of_nat (length plan) = 2 /\ increasing plan.
Proof.
  split.
  - apply (count_edge_cases (Demo.cli_per_rank 8 0) 0 1 0 eq_refl eq_refl);
      [vm_compute; discriminate | lia].
  - destruct (count_edge_cases (Demo.cli_per_rank 8 2) 9 16 2 eq_refl eq_refl)
      as [_ Hpos]; [vm_compute; discriminate|].
    destruct Hpos as (plan & Hplan & Hlen & Hinc); [lia|].
    exists plan. split; [done|]. split; [done|]. by apply Hinc.
Defined.

(** * More about the device plan (lines 80-83) *)

(** Whatever [choose_gpus] returns without an explicit list is either
    the default plan or the comprehension over a nonzero [local_size]. *)
Lemma choose_gpus_computed args rank n_ranks plan :
  gpus args = None ->
  choose_gpus args rank n_ranks = Ok plan ->
  (gpus_per_rank args = None /\ plan = []) \/
  exists g,
    gpus_per_rank args = Some g /\
    Z.min (ranks_per_node args) n_ranks <> 0 /\
    plan = (fun i => i * Z.min (ranks_per_node args) n_ranks
                     + rank mod Z.min (ranks_per_node args) n_ranks)
             <$> range g.
Proof.
  intros Hl Hplan.
  destruct (gpus_per_rank args) as [g|] eqn:Hg.
  - right. exists g. split; [done|].
    destruct (decide (Z.min (ranks_per_node args) n_ranks = 0)) as [Hz|Hnz].
    + rewrite (choose_gpus_zero_local_size _ _ _ g Hl Hg Hz) in Hplan.
      discriminate.
    + rewrite (choose_gpus_per_rank _ _ _ g Hl Hg Hnz) in Hplan.
      split; [done|]. congruence.
  - left. split; [done|]. unfold choose_gpus in Hplan.
    rewrite Hl, Hg in Hplan. congruence.
Qed.

(** X1. A plan computed by [main] itself (no explicit list) never names
    a device twice. *)
Theorem plan_no_duplicates args rank n_ranks plan :
  gpus args = None ->
  choose_gpus args rank n_ranks = Ok plan ->
  NoDup plan.
Proof.
  intros Hl Hplan.
  destruct (choose_gpus_computed _ _ _ _ Hl Hplan)
    as [[_ ->]|(g & _ & Hls & ->)]; [constructor|].
  apply NoDup_fmap_2_strong; [|apply NoDup_seqZ].
  intros i j _ _ Heq. nia.
Qed.

(** X2. With [ranks_per_node >= 1] and a world of at least one worker,
    the plan of a rank holds exactly the device ids below
    [gpus_per_rank * local_size] that are congruent to the rank modulo
    [local_size]; so the plans of the [local_size] local ranks cover
    [0 .. gpus_per_rank * local_size - 1]. *)
Theorem plan_membership args rank n_ranks g :
  gpus args = None ->
  gpus_per_rank args = Some g ->
  1 <= ranks_per_node args ->
  1 <= n_ranks ->
  let local_size := Z.min (ranks_per_node args) n_ranks in
  exists plan,
    choose_gpus args rank n_ranks = Ok plan /\
    forall d, d ∈ plan <->
      0 <= d < g * local_size /\ d mod local_size = rank mod local_size.
Proof.
  intros Hl Hg Hr Hn local_size.
  assert (0 < local_size) as Hls by (unfold local_size; lia).
  eexists. split; [apply choose_gpus_per_rank; try done; lia|].
  fold local_size. intros d. rewrite list_elem_of_fmap. unfold range.
  pose proof (Z.mod_pos_bound rank local_size Hls) as Hlr.
  split.
  - intros (i & -> & Hi%elem_of_seqZ). split; [nia|].
    rewrite Z.add_comm, Z_mod_plus_full. by apply Z.mod_mod; lia.
  - intros [Hd Hmod]. exists (d `div` local_size). split.
    + rewrite <- Hmod. rewrite Z.mul_comm. apply Z.div_mod. lia.
    + apply elem_of_seqZ. split; [apply Z.div_pos; lia|].
      apply Z.div_lt_upper_bound; lia.
Qed.

(** X3. For a nonzero [local_size] the plans of any two ranks, on the
    same node or not, are the same list when the ranks are congruent
    modulo [local_size] and are disjoint otherwise. *)
Theorem plans_equal_or_disjoint args n_ranks g r1 r2 :
  gpus args = None ->
  gpus_per_rank args = Some g ->
  let local_size := Z.min (ranks_per_node args) n_ranks in
  local_size <> 0 ->
  exists p1 p2,
    choose_gpus args r1 n_ranks = Ok p1 /\
    choose_gpus args r2 n_ranks = Ok p2 /\
    (r1 mod local_size = r2 mod local_size -> p1 = p2) /\
    (r1 mod local_size <> r2 mod local_size ->
     (list_to_set p1 : gset Z) ## list_to_set p2).
Proof.
  intros Hl Hg local_size Hls.
  do 2 eexists. split; [by apply choose_gpus_per_rank|].
  split; [by apply choose_gpus_per_rank|]. fold local_size. split.
  - by intros ->.
  - intros Hne d Hd1 Hd2.
    apply elem_of_list_to_set, list_elem_of_fmap in Hd1 as (i & -> & _).
    apply elem_of_list_to_set, list_elem_of_fmap in Hd2 as (j & Heq & _).
    apply Hne.
    destruct (Z.lt_total local_size 0) as [Hneg|[?|Hpos]]; [|done|].
    + pose proof (Z.mod_neg_bound r1 local_size Hneg).
      pose proof (Z.mod_neg_bound r2 local_size Hneg).
      assert (i = j) by nia. subst. lia.
    + pose proof (Z.mod_pos_bound r1 local_size Hpos).
      pose proof (Z.mod_pos_bound r2 local_size Hpos).
      assert (i = j) by nia. subst. lia.
Qed.

(** * The log file of a rank (line 63) *)

Lemma string_length_app (s t : string) :
  String.length (s +:+ t) = (String.length s + String.length t)%nat.
Proof.
  induction s as [|a s IH]; [done|].
  change (S (String.length (s +:+ t))
          = S (String.length s + String.length t)).
  by rewrite IH.
Qed.

Lemma string_app_inv_tail (s1 s2 t : string) :
  s1 +:+ t = s2 +:+ t -> s1 = s2.
Proof.
  revert s2. induction s1 as [|a s1 IH]; intros [|b s2] Heq.
  - done.
  - apply (f_equal String.length) in Heq.
    rewrite !string_length_app in Heq. cbn in Heq. lia.
  - apply (f_equal String.length) in Heq.
    rewrite !string_length_app in Heq. cbn in Heq. lia.
  - change (String a (s1 +:+ t) = String b (s2 +:+ t)) in Heq.
    injection Heq as -> Heq. f_equal. by apply IH.
Qed.

(** X4. Two ranks have the same log file name [out_<rank>.log] only if
    they are the same rank. *)
Theorem log_name_injective r1 r2 : log_name r1 = log_name r2 -> r1 = r2.
Proof.
  unfold log_name. intros Heq.
  apply (inj (String.app "out_")) in Heq.
  apply string_app_inv_tail in Heq. by apply (inj pretty).
Qed.

(** * More about runs *)

Lemma lookup_key_Err {A} (d : gmap string A) k e :
  lookup_key d k = Err e -> e = KeyError k /\ d !! k = None.
Proof.
  unfold lookup_key. destruct (d !! k); [discriminate|]. by intros [= <-].
Qed.

Lemma getitem_Ok cfg k v :
  getitem cfg k = Ok v -> exists d, cfg = YDict d /\ d !! k = Some v.
Proof.
  unfold getitem. destruct cfg; try discriminate. intros H%lookup_key_Ok.
  eauto.
Qed.

Lemma as_kwargs_Ok taken v kw :
  as_kwargs taken v = Ok kw ->
  v = YDict kw /\ forall k, k ∈ taken -> kw !! k = None.
Proof.
  unfold as_kwargs. destruct v; try discriminate.
  destruct (existsb _ taken) eqn:Hex; [discriminate|]. intros [= ->].
  split; [done|]. intros k Hk%list_elem_of_In.
  destruct (kw !! k) eqn:Hkw; [|done].
  assert (existsb (fun k => bool_decide (is_Some (kw !! k))) taken = true)
    as Hyes; [|congruence].
  apply existsb_exists. exists k. split; [done|].
  apply bool_decide_eq_true. rewrite Hkw. eauto.
Qed.

Lemma as_kwargs_data v kw :
  as_kwargs ["distributed"] v = Ok kw ->
  v = YDict kw /\ kw !! "distributed" = None.
Proof.
  intros [-> H]%as_kwargs_Ok. split; [done|]. apply H. set_solver.
Qed.

Lemma as_kwargs_train v kw :
  as_kwargs ["train_data_loader"; "valid_data_loader"] v = Ok kw ->
  v = YDict kw /\
  kw !! "train_data_loader" = None /\ kw !! "valid_data_loader" = None.
Proof.
  intros [-> H]%as_kwargs_Ok. repeat split; [apply H..]; set_solver.
Qed.

Lemma dict_get_Ok cfg k v :
  dict_get cfg k = Ok v ->
  exists d, cfg = YDict d /\ default YNone (d !! k) = v.
Proof.
  unfold dict_get. destruct cfg; try discriminate. intros [= <-]. eauto.
Qed.

Lemma dict_get_Err cfg k e :
  dict_get cfg k = Err e -> e = AttributeError /\ forall d, cfg <> YDict d.
Proof.
  unfold dict_get. destruct cfg; try discriminate; intros [= <-]; done.
Qed.

(** What a path has read from the configuration. *)
Ltac read_config :=
  repeat match goal with
    | H : dict_get _ _ = Ok _ |- _ =>
        apply dict_get_Ok in H as (? & [= <-] & H)
    | H : dict_get _ _ = Err _ |- _ =>
        apply dict_get_Err in H as [-> H]
    | H : getitem _ _ = Ok _ |- _ =>
        apply getitem_Ok in H as (? & [= <-] & H)
    | H : as_kwargs ["distributed"] _ = Ok _ |- _ =>
        apply as_kwargs_data in H as [-> H]
    | H : as_kwargs [_; _] _ = Ok _ |- _ =>
        apply as_kwargs_train in H as (-> & H & ?)
    end.

(** X5. [main] recovers from nothing: a call that raises is the last
    event of the run, and its exception is the outcome of the run. *)
Theorem no_recovery C args w :
  let tr := trace (run C args w).1 in
  let r := (run C args w).2 in
  forall e, e ∈ tr -> forall x, raised e = Some x ->
    last tr = Some e /\ r = Err x.
Proof.
  cbv zeta. run_main.
  all: every_event.
  all: repeat (apply List.Forall_cons; [cbn [raised]; try by intros ? [=]|]);
    try apply List.Forall_nil.
  all: intros ? [= <-]; split; reflexivity.
Qed.

(** X6. Every run starts with [init_workers], called with the backend
    of the command line, and a run completes exactly when its last
    event is the line [All done!]. *)
Theorem first_and_last C args w :
  let tr := trace (run C args w).1 in
  let r := (run C args w).2 in
  (exists r0, head tr = Some (EvInitWorkers (distributed_backend args) r0)) /\
  (is_ok r = true <-> last tr = Some (EvLog "All done!" [])).
Proof.
  cbv zeta. run_main.
  all: split; [eexists; reflexivity|].
  all: cbn; split; congruence.
Qed.

(** X7. No run calls [init_workers], [load_config], [makedirs],
    [config_logging], [get_data_loaders], [get_trainer], the trainer's
    [build], [load_checkpoint] or [train] more than once, nor plans the
    devices more than once, and [np.mean] is taken at most twice; a run
    that completes makes each of these calls exactly once, [makedirs]
    and [load_checkpoint] apart. *)
Theorem calls_at_most_once C args w :
  let tr := trace (run C args w).1 in
  let r := (run C args w).2 in
  Forall (fun P => (count P tr <= 1)%nat)
    [is_init_workers; is_load_config; is_makedirs; is_config_logging;
     is_get_data_loaders; is_choose_gpus; is_get_trainer; is_build;
     is_load_checkpoint; is_train] /\
  (count is_mean tr <= 2)%nat /\
  (is_ok r = true ->
   Forall (fun P => count P tr = 1%nat)
     [is_init_workers; is_load_config; is_config_logging;
      is_get_data_loaders; is_choose_gpus; is_get_trainer; is_build;
      is_train]).
Proof.
  cbv zeta. run_main.
  all: split; [repeat constructor; cbn; lia|].
  all: split; [cbn; lia|].
  all: intros Hok; try discriminate Hok.
  all: repeat constructor.
Qed.

(** X8. The trainer's [build], [load_checkpoint] and [train] are called
    on the trainer that [get_trainer] returned, [build] with the loaded
    configuration, [train] with the two loaders that [get_data_loaders]
    returned; [get_trainer] is called with the rank that [init_workers]
    returned and with the computed device plan. *)
Theorem calls_well_fed C args w :
  let tr := trace (run C args w).1 in
  forall e, e ∈ tr -> well_fed tr e.
Proof.
  cbv zeta. run_main.
  all: every_event.
  all: repeat (apply List.Forall_cons; [cbn; eauto|]);
    try apply List.Forall_nil.
Qed.

(** X9. With a mapping as configuration, [get_data_loaders] is only
    called with the ['data'] section as keywords, [get_trainer] with
    the ['trainer'] entry as name and [train] with the ['train']
    section as keywords; a section passed as keywords is a mapping that
    does not repeat a keyword of the call ([distributed], resp.
    [train_data_loader] and [valid_data_loader]), so the configuration
    cannot override them. *)
Theorem config_sections C args w d :
  let tr := trace (run C args w).1 in
  loaded_config tr = Some (YDict d) ->
  forall e, e ∈ tr -> fed_from d e.
Proof.
  cbv zeta. run_main.
  all: cbn [loaded_config]; intros Hcfg; try discriminate Hcfg.
  all: injection Hcfg as ->.
  all: read_config.
  all: every_event;
    repeat (apply List.Forall_cons; [cbn [fed_from]; auto using conj|]);
    try apply List.Forall_nil.
Qed.

(** X10. Without an [output_dir] in the configuration (absent or null)
    no directory is created, logging gets no file and the trainer no
    output directory.  With a string [output_dir] the directory created
    is its expansion [dir], logging is configured only after
    [makedirs], with the file [path_join dir out_<rank>.log], and the
    trainer gets [dir].  In both cases [config_logging] gets the
    verbosity flag and the resume flag as [append]. *)
Theorem output_dir_prepared C args w d rank n_ranks :
  let tr := trace (run C args w).1 in
  loaded_config tr = Some (YDict d) ->
  topology tr = Some (rank, n_ranks) ->
  (d !! "output_dir" = None \/ d !! "output_dir" = Some YNone ->
   ~ occurs is_makedirs tr /\
   forall e, e ∈ tr -> set_up args None None e) /\
  (forall s, d !! "output_dir" = Some (YStr s) ->
   let dir := expandvars C s in
   preceded_by is_config_logging is_makedirs tr /\
   forall e, e ∈ tr ->
     set_up args (Some dir) (Some (path_join C dir (log_name rank))) e).
Proof.
  cbv zeta. run_main.
  all: cbn [loaded_config topology]; intros Hcfg Htop;
    try discriminate Hcfg.
  all: injection Hcfg as ->; injection Htop as -> ->.
  all: match goal with
    | H : dict_get _ _ = Ok _ |- _ =>
        apply dict_get_Ok in H as (? & [= <-] & Hget)
    | H : dict_get (YDict _) _ = Err _ |- _ =>
        unfold dict_get in H; discriminate H
    end.
  all: split; [intros [Hod|Hod]|intros dir Hod];
    rewrite Hod in Hget; cbn in Hget; try discriminate Hget.
  all: try injection Hget as ->.
  all: split;
    [first [apply not_occurs_existsb; reflexivity
           |apply preceded_byb_sound; reflexivity]|].
  all: every_event;
    repeat (apply List.Forall_cons; [cbn [set_up]; auto using conj|]);
    try apply List.Forall_nil.
Qed.


(** X12. The line [Configuration: ...] is logged exactly once, with
    the loaded configuration, when the rank is 0 and the first barrier
    was passed, and not at all otherwise; it comes after that barrier
    and before the data loaders, the device plan and the trainer. *)
Theorem configuration_line C args w rank n_ranks cfg :
  let tr := trace (run C args w).1 in
  topology tr = Some (rank, n_ranks) ->
  loaded_config tr = Some cfg ->
  List.filter is_config_line tr =
    (if existsb is_barrier_passed tr && (rank =? 0)
     then [EvLog "Configuration: %s" [AYaml cfg]]
     else []) /\
  preceded_by is_config_line is_barrier_passed tr /\
  all_before is_config_line is_construction tr.
Proof.
  cbv zeta. run_main.
  all: cbn [topology loaded_config]; intros Htop Hcfg;
    try discriminate Hcfg.
  all: injection Hcfg as ->; injection Htop as -> ->.
  all: split;
    [try match goal with H : (_ =? 0) = _ |- _ => rewrite H end;
     reflexivity|].
  all: split; [apply preceded_byb_sound; reflexivity|].
  all: apply all_beforeb_sound; reflexivity.
Qed.

(** X13. The line [Using GPUs ...] is logged exactly once, with the
    plan, when the computed device plan is not empty, and not at all
    when it is empty or not computed; it comes after the plan and
    before [get_trainer]. *)
Theorem gpu_line C args w :
  let tr := trace (run C args w).1 in
  List.filter is_gpu_line tr =
    match planned tr with
    | Some (d :: plan) => [EvLog "Using GPUs %s" [AInts (d :: plan)]]
    | _ => []
    end /\
  preceded_by is_gpu_line is_planned tr /\
  all_before is_gpu_line is_get_trainer tr.
Proof.
  cbv zeta. run_main.
  all: repeat match goal with
    | H : (0 <? Z.of_nat (length ?l)) = _ |- _ =>
        destruct l; cbn in H; try discriminate H; clear H
    end.
  all: split; [reflexivity|].
  all: split; [apply preceded_byb_sound; reflexivity|].
  all: apply all_beforeb_sound; reflexivity.
Qed.

(** X14. A summary without ['train_time'] ends the run without any
    statistic, in [KeyError('train_time')] once the second barrier is
    passed.  ['valid_time'] is read only with a validation loader:
    with one, a summary without it ends the run without the validation
    line, in [KeyError('valid_time')] once the train mean is taken;
    without one, the run that passed both barriers completes. *)
Theorem summary_keys C args w summary :
  let tr := trace (run C args w).1 in
  let r := (run C args w).2 in
  trained_summary tr = Some summary ->
  (summary !! "train_time" = None ->
   is_ok r = false /\ ~ occurs is_statistic tr /\
   (count is_barrier_passed tr = 2%nat ->
    r = Err (KeyError "train_time"))) /\
  (summary !! "valid_time" = None ->
   forall tl vl, built_loaders tr = Some (tl, vl) ->
   match vl with
   | Some _ =>
       is_ok r = false /\ ~ occurs is_valid_line tr /\
       (occurs is_mean tr -> r = Err (KeyError "valid_time"))
   | None =>
       is_Some (summary !! "train_time") ->
       count is_barrier_passed tr = 2%nat -> r = Ok tt
   end).
Proof.
  cbv zeta. run_main.
  all: cbn [trained_summary]; intros Hsum; try discriminate Hsum.
  all: injection Hsum as ->.
  all: repeat match goal with
    | H : lookup_key _ _ = Ok _ |- _ => apply lookup_key_Ok in H
    | H : lookup_key _ _ = Err _ |- _ => apply lookup_key_Err in H as [-> H]
    end.
  all: split; intros Hmiss; try congruence.
  all: try (intros tl vl Hld; cbn [built_loaders] in Hld;
            injection Hld as <- <-;
            try match goal with
                | |- match ?o with _ => _ end => destruct o
                end).
  all: try (intros [? Hsome] Hcount;
            first [reflexivity | congruence | cbn in Hcount; congruence]).
  all: split; [reflexivity|].
  all: split; [apply not_occurs_existsb; reflexivity|].
  all: try rewrite occurs_existsb; intros Hc;
    first [reflexivity | cbn in Hc; congruence].
Qed.

(** X15. With [gpus_per_rank] given, no explicit list and
    [min(ranks_per_node, world_size) = 0], no run completes: no device
    plan is computed and no trainer constructed, and the run whose data
    loaders were constructed ends in [ZeroDivisionError]. *)
Theorem zero_local_size_aborts C args w g rank n_ranks :
  let tr := trace (run C args w).1 in
  let r := (run C args w).2 in
  gpus args = None ->
  gpus_per_rank args = Some g ->
  topology tr = Some (rank, n_ranks) ->
  Z.min (ranks_per_node args) n_ranks = 0 ->
  is_ok r = false /\
  ~ occurs is_planned tr /\ ~ occurs is_get_trainer tr /\
  (occurs is_data_loaded tr -> r = Err ZeroDivisionError).
Proof.
  cbv zeta. intros Hl Hg. run_main.
  all: cbn [topology]; intros Htop Hz; try discriminate Htop.
  all: injection Htop as -> ->.
  all: try match goal with
    | H : choose_gpus _ _ _ = _ |- _ =>
        rewrite (choose_gpus_zero_local_size _ _ _ g Hl Hg Hz) in H;
        try discriminate H; injection H as <-
    end.
  all: split; [reflexivity|].
  all: do 2 (split; [apply not_occurs_existsb; reflexivity|]).
  all: rewrite occurs_existsb; first [reflexivity | cbn; congruence].
Qed.


(** ** These theorems at concrete inputs *)

Lemma plan_no_duplicates_witness : NoDup [1; 9].
Proof.
  apply (plan_no_duplicates (Demo.cli_per_rank 8 2) 9 16 [1; 9]);
    reflexivity.
Defined.

Lemma plan_membership_witness :
  exists plan,
    choose_gpus (Demo.cli_per_rank 8 2) 9 16 = Ok plan /\
    forall d, d ∈ plan <->
      0 <= d < 2 * Z.min 8 16 /\ d mod Z.min 8 16 = 9 mod Z.min 8 16.
Proof.
  apply (plan_membership (Demo.cli_per_rank 8 2) 9 16 2);
    [reflexivity | reflexivity | cbn; lia | lia].
Defined.

Lemma plans_equal_or_disjoint_witness :
  exists p1 p2,
    choose_gpus (Demo.cli_per_rank 8 2) 1 16 = Ok p1 /\
    choose_gpus (Demo.cli_per_rank 8 2) 9 16 = Ok p2 /\
    p1 = p2.
Proof.
  destruct (plans_equal_or_disjoint (Demo.cli_per_rank 8 2) 16 2 1 9
              eq_refl eq_refl)
    as (p1 & p2 & H1 & H2 & Hsame & _); [vm_compute; discriminate|].
  exists p1, p2. split; [done|]. split; [done|]. apply Hsame. reflexivity.
Defined.

Lemma log_name_injective_witness : 3 = 3.
Proof. apply (log_name_injective 3 3). reflexivity. Defined.

Lemma no_recovery_witness :
  (run Demo.single (Demo.cli_per_rank 0 1) tt).2 = Err ZeroDivisionError.
Proof.
  apply (no_recovery Demo.single (Demo.cli_per_rank 0 1) tt
           (@EvChooseGpus Demo.single (Err ZeroDivisionError))); [|reflexivity].
  apply (list_elem_of_lookup_2 _ 7). vm_compute. reflexivity.
Defined.

Lemma first_and_last_witness :
  last (trace (run Demo.single Demo.cli tt).1) = Some (EvLog "All done!" []).
Proof.
  apply (proj2 (first_and_last Demo.single Demo.cli tt)). vm_compute; reflexivity.
Defined.

Lemma calls_at_most_once_witness :
  count is_train (trace (run Demo.single Demo.cli tt).1) = 1%nat.
Proof.
  destruct (calls_at_most_once Demo.single Demo.cli tt) as (_ & _ & Hdone).
  specialize (Hdone ltac:(vm_compute; reflexivity)).
  rewrite Forall_forall in Hdone. apply Hdone. set_solver.
Defined.

Lemma calls_well_fed_witness :
  built_trainer (trace (run Demo.single Demo.cli_resume tt).1) = Some tt.
Proof.
  apply (calls_well_fed Demo.single Demo.cli_resume tt
           (@EvLoadCheckpoint Demo.single tt (Ok tt))).
  apply (list_elem_of_lookup_2 _ 10). vm_compute. reflexivity.
Defined.

Lemma config_sections_witness :
  Demo.hello !! "trainer" = Some (YStr "basic").
Proof.
  apply (config_sections Demo.single Demo.cli tt Demo.hello
           ltac:(vm_compute; reflexivity)
           (@EvGetTrainer Demo.single (YStr "basic") false [] 0 None (Ok tt))).
  apply (list_elem_of_lookup_2 _ 8). vm_compute. reflexivity.
Defined.

Lemma output_dir_prepared_witness :
  preceded_by is_config_logging is_makedirs
    (trace (run Demo.archived Demo.cli tt).1).
Proof.
  destruct (output_dir_prepared Demo.archived Demo.cli tt Demo.hello_out 0 1)
    as [_ Hdir]; [vm_compute; reflexivity..|].
  apply (Hdir "$SCRATCH/out"). vm_compute; reflexivity.
Defined.


Lemma configuration_line_witness :
  List.filter is_config_line (trace (run Demo.single Demo.cli tt).1)
  = [EvLog "Configuration: %s" [AYaml (YDict Demo.hello)]].
Proof.
  destruct (configuration_line Demo.single Demo.cli tt 0 1 (YDict Demo.hello))
    as [Hline _]; [vm_compute; reflexivity..|].
  rewrite Hline. vm_compute; reflexivity.
Defined.

Lemma summary_keys_witness :
  (run Demo.terse Demo.cli tt).2 = Err (KeyError "valid_time").
Proof.
  destruct (summary_keys Demo.terse Demo.cli tt (<["train_time" := [2; 4]]> ∅))
    as [_ Hvalid]; [vm_compute; reflexivity|].
  specialize (Hvalid ltac:(vm_compute; reflexivity) 1000 (Some 200)
                ltac:(vm_compute; reflexivity)).
  destruct Hvalid as (_ & _ & Hend). apply Hend.
  apply occurs_existsb. vm_compute; reflexivity.
Defined.

Lemma zero_local_size_aborts_witness :
  (run Demo.single (Demo.cli_per_rank 0 1) tt).2 = Err ZeroDivisionError.
Proof.
  destruct (zero_local_size_aborts Demo.single (Demo.cli_per_rank 0 1) tt
              1 0 1 eq_refl eq_refl)
    as (_ & _ & _ & Hend); [vm_compute; reflexivity..|].
  apply Hend. apply occurs_existsb. vm_compute; reflexivity.
Defined.
